(** * Rigol_view: download channel 1 of a Rigol oscilloscope into channel1.wav

    A shallow embedding of [Rigol_view/Rigol_view.py].  The script is a
    straight line of calls into PyVISA (the instrument provider), the
    [wave] module and [print], wrapped in two [try] statements.  The
    embedding keeps that shape:

    - the Python built-ins the script leans on ([in] on strings, [float],
      [int], [bytes], [len], indexing) are Rocq functions;
    - everything outside the script (what the provider, the instrument and
      the container writer answer) is one record, [environment];
    - the script itself is written in a small state-and-exception monad
      whose state is the chronological log of the calls made and the file
      system, so that [try]/[except]/[finally], [with] and [sys.exit] read
      as they do in the source. *)

From Stdlib Require Import ZArith List Bool Lia.
From Stdlib Require Import Strings.String Strings.Ascii Strings.Byte.
From Stdlib Require Import Floats.SpecFloat.
Import ListNotations.

Local Open Scope string_scope.
Local Open Scope list_scope.
Local Open Scope Z_scope.

(** ** Python built-ins used by the script *)

Module Py.

(** Exceptions derived from [Exception] that reach the script.  The first
    two are the PyVISA classes the script names in its handlers. *)
Inductive error : Type :=
| LibraryError (msg : string)
| VisaIOError (msg : string)
| ValueError (msg : string)
| OverflowError (msg : string)
| IndexError (msg : string)
| OtherError (cls msg : string).

(** What a [raise] carries: an [Exception], or the [SystemExit] of
    [sys.exit], which is a [BaseException] and no [Exception]. *)
Inductive signal : Type :=
| Exc (e : error)
| SystemExit (code : Z).

(** Outcome of evaluating an expression or a call. *)
Inductive outcome (A : Type) : Type :=
| Returns (a : A)
| Fails (e : error).
Arguments Returns {A} a.
Arguments Fails {A} e.

Definition is_ok {A} (o : outcome A) : bool :=
  match o with Returns _ => true | Fails _ => false end.

(** *** [needle in haystack] on [str] *)

Fixpoint str_in (needle hay : string) : bool :=
  String.prefix needle hay ||
  match hay with
  | EmptyString => false
  | String _ rest => str_in needle rest
  end.

(** *** [float(str)]

    A Python float is an IEEE 754 binary64 number. *)

Definition float : Type := spec_float.
Definition prec : Z := 53.
Definition emax : Z := 1024.

Definition code (c : ascii) : Z := Z.of_N (N_of_ascii c).

Definition is_digit (c : ascii) : bool := (48 <=? code c) && (code c <=? 57).

(** [Py_ISSPACE]: space, tab, newline, vertical tab, form feed, return. *)
Definition is_space (c : ascii) : bool :=
  (code c =? 32) || ((9 <=? code c) && (code c <=? 13)).

Definition to_lower (c : ascii) : ascii :=
  if (65 <=? code c) && (code c <=? 90)
  then ascii_of_N (Z.to_N (code c + 32)) else c.

(** PEP 515: an underscore is dropped when it stands between two digits
    and is an error anywhere else.  [prev] is the character before. *)
Fixpoint drop_underscores (prev : ascii) (s : string) : option string :=
  match s with
  | EmptyString => if Ascii.eqb prev "_" then None else Some EmptyString
  | String c rest =>
      if Ascii.eqb c "_" then
        if is_digit prev then drop_underscores c rest else None
      else if Ascii.eqb prev "_" && negb (is_digit c) then None
      else option_map (String c) (drop_underscores c rest)
  end.

Fixpoint lstrip (s : string) : string :=
  match s with
  | String c rest => if is_space c then lstrip rest else s
  | EmptyString => s
  end.

Fixpoint rstrip (s : string) : string :=
  match s with
  | EmptyString => EmptyString
  | String c rest =>
      match rstrip rest with
      | EmptyString => if is_space c then EmptyString else String c EmptyString
      | kept => String c kept
      end
  end.

(** Leading decimal digits of [s], most significant first, and what
    follows them. *)
Fixpoint take_digits (s : string) : list Z * string :=
  match s with
  | String c rest =>
      if is_digit c
      then let '(ds, tl) := take_digits rest in (code c - 48 :: ds, tl)
      else ([], s)
  | EmptyString => ([], s)
  end.

Definition digits_value (ds : list Z) : Z :=
  fold_left (fun acc d => 10 * acc + d) ds 0.

Definition take_sign (s : string) : bool * string :=
  match s with
  | String "-" rest => (true, rest)
  | String "+" rest => (false, rest)
  | _ => (false, s)
  end.

(** The exponent part: [e] or [E], an optional sign, at least one digit.
    Without a digit the [e] is not part of the number. *)
Definition take_exponent (s : string) : Z * string :=
  match s with
  | String c rest =>
      if Ascii.eqb (to_lower c) "e" then
        let '(neg, after_sign) := take_sign rest in
        match take_digits after_sign with
        | ([], _) => (0, s)
        | (ds, tl) => ((if neg then - digits_value ds else digits_value ds), tl)
        end
      else (0, s)
  | EmptyString => (0, s)
  end.

(** The value [m * 10^e10] with sign [neg], rounded to the nearest
    binary64, ties to even; too large a value becomes an infinity. *)
Definition round_decimal (neg : bool) (m e10 : Z) : float :=
  match m with
  | Zpos p =>
      if 0 <=? e10
      then binary_round prec emax neg (p * Z.to_pos (10 ^ e10)) 0
      else SFdiv prec emax (S754_finite neg p 0)
                           (S754_finite false (Z.to_pos (10 ^ (- e10))) 0)
  | _ => S754_zero neg
  end.

(** A decimal number: digits with an optional point, then an optional
    exponent.  At least one digit is required before the exponent. *)
Definition parse_decimal (neg : bool) (s : string) : option (float * string) :=
  let '(int_digits, after_int) := take_digits s in
  let '(frac_digits, after_frac) :=
    match after_int with
    | String "." rest => take_digits rest
    | _ => ([], after_int)
    end in
  match int_digits ++ frac_digits with
  | [] => None
  | ds =>
      let '(e, tl) := take_exponent after_frac in
      Some (round_decimal neg (digits_value ds)
                          (e - Z.of_nat (List.length frac_digits)), tl)
  end.

(** Case-insensitive match of the lower-case word [w] at the head of [s];
    the rest of [s] when it matches. *)
Fixpoint match_word (w s : string) : option string :=
  match w, s with
  | EmptyString, _ => Some s
  | String a w', String c s' =>
      if Ascii.eqb (to_lower c) a then match_word w' s' else None
  | String _ _, EmptyString => None
  end.

Definition parse_inf_or_nan (neg : bool) (s : string) : option (float * string) :=
  match match_word "inf" s with
  | Some tl =>
      match match_word "inity" tl with
      | Some tl' => Some (S754_infinity neg, tl')
      | None => Some (S754_infinity neg, tl)
      end
  | None =>
      match match_word "nan" s with
      | Some tl => Some (S754_nan, tl)
      | None => None
      end
  end.

(** [float(s)] for an ASCII [str]: underscores checked and dropped,
    surrounding white space stripped, then a decimal number, an infinity or
    a nan that must take up the whole string.  Anything else is a
    [ValueError]. *)
Definition py_float (s : string) : outcome float :=
  let bad := Fails (ValueError "could not convert string to float") in
  match drop_underscores zero s with
  | None => bad
  | Some s1 =>
      let '(neg, body) := take_sign (rstrip (lstrip s1)) in
      let parsed :=
        match parse_decimal neg body with
        | Some r => Some r
        | None => parse_inf_or_nan neg body
        end in
      match parsed with
      | Some (x, EmptyString) => Returns x
      | _ => bad
      end
  end.

(** *** [int(float)]: truncation towards zero *)

Definition py_int (x : float) : outcome Z :=
  match x with
  | S754_nan => Fails (ValueError "cannot convert float NaN to integer")
  | S754_infinity _ =>
      Fails (OverflowError "cannot convert float infinity to integer")
  | S754_zero _ => Returns 0
  | S754_finite neg m e =>
      let magnitude := Z.shiftl (Z.pos m) e in
      Returns (if neg then - magnitude else magnitude)
  end.

(** *** [bytes(list_of_int)]

    Every item must lie in [range(0, 256)]. *)

Definition byte_of_int (z : Z) : option byte :=
  if 0 <=? z then Byte.of_N (Z.to_N z) else None.

Definition int_of_byte (b : byte) : Z := Z.of_N (Byte.to_N b).

Fixpoint py_bytes (items : list Z) : outcome (list byte) :=
  match items with
  | [] => Returns []
  | z :: rest =>
      match byte_of_int z with
      | None => Fails (ValueError "bytes must be in range(0, 256)")
      | Some b =>
          match py_bytes rest with
          | Returns bs => Returns (b :: bs)
          | Fails e => Fails e
          end
      end
  end.

(** [sequence[i]] *)
Definition index {A} (l : list A) (i : nat) : outcome A :=
  match nth_error l i with
  | Some a => Returns a
  | None => Fails (IndexError "list index out of range")
  end.

End Py.

Import Py.

(** ** The world the script acts on *)

(** The 6-tuple handed to [Wave_write.setparams]. *)
Record wave_params : Type := {
  nchannels : Z;
  sampwidth : Z;
  framerate : Z;
  nframes : Z;
  comptype : string;
  compname : string
}.

(** What a file holds, as far as the script can tell: nothing yet (just
    created or truncated by opening it for writing), a header declaring [p]
    followed by the payload [frames], or the remains of a write that
    raised. *)
Inductive file_content : Type :=
| Empty
| Container (p : wave_params) (frames : list byte)
| Unfinished.

Definition files : Type := string -> option file_content.

Definition no_files : files := fun _ => None.

Definition store (d : files) (name : string) (c : file_content) : files :=
  fun n => if String.eqb n name then Some c else d n.

(** The calls that leave the script, with their arguments. *)
Inductive call : Type :=
| ResourceManager
| ListResources
| RmClose
| OpenResource (resource_name : string) (timeout chunk_size : Z)
| Query (message : string)
| Write (message : string)
| QueryBinaryValues (message datatype header_fmt : string)
                    (is_big_endian : bool)
| ScopeClose
| WaveOpen (f mode : string)
| SetParams (p : wave_params)
| WriteFrames (data : list byte)
| WaveClose.

(** A printed line is kept in pieces: literal text and the values that the
    f-string or [print] formats. *)
Inductive piece : Type :=
| Lit (text : string)
| TupleOf (items : list string)
| ListOf (items : list string)
| FloatOf (x : float)
| IntOf (z : Z)
| ErrorOf (e : error).

(** One entry of the log: a call and whether it returned (rather than
    raised), or a line printed. *)
Inductive event : Type :=
| Called (c : call) (returned : bool)
| Printed (line : list piece).

(** The [Wave_write] object between [wave.open] and its close. *)
Record Wave_write : Type := {
  wr_file : string;
  wr_params : option wave_params
}.

Record world : Type := {
  log : list event;          (* oldest first *)
  disk : files;
  wav_file : option Wave_write
}.

Definition start (d : files) : world :=
  {| log := []; disk := d; wav_file := None |}.

Definition record (ev : event) (w : world) : world :=
  {| log := log w ++ [ev]; disk := disk w; wav_file := wav_file w |}.

(** What the world answers.  Each field is the outcome of one kind of call,
    as a function of the arguments that the script can vary.

    - [on_ResourceManager] is the exception that the constructor raises, if
      it raises one: a [LibraryError], which the first [try] statement
      handles, or one of any other class, which nothing catches.
    - Releasing the resource manager and printing return normally. *)
Record environment : Type := {
  on_ResourceManager : option error;
  on_list_resources : outcome (list string);
  on_open_resource : string -> outcome unit;
  on_query : string -> outcome string;
  on_write : string -> outcome unit;
  on_query_binary_values : string -> outcome (list byte);
  on_scope_close : outcome unit;
  on_wave_open : string -> outcome unit;
  on_setparams : wave_params -> outcome unit;
  on_writeframes : wave_params -> list byte -> outcome unit;
  on_wave_close : option file_content -> outcome unit
}.

(** ** A monad for statements: state, and a raised signal or a value *)

Inductive result (A : Type) : Type :=
| Normal (a : A)
| Raised (s : signal).
Arguments Normal {A} a.
Arguments Raised {A} s.

Definition M (A : Type) : Type := world -> result A * world.

Definition ret {A} (a : A) : M A := fun w => (Normal a, w).

Definition bind {A B} (c : M A) (k : A -> M B) : M B :=
  fun w =>
    match c w with
    | (Normal a, w') => k a w'
    | (Raised s, w') => (Raised s, w')
    end.

Definition raise {A} (s : signal) : M A := fun w => (Raised s, w).

Declare Scope py_scope.
Delimit Scope py_scope with py.
Notation "x <- c ;; k" := (bind c (fun x => k))
  (at level 61, c at next level, right associativity) : py_scope.
Notation "c ;; k" := (bind c (fun _ => k))
  (at level 61, right associativity) : py_scope.
Local Open Scope py_scope.

(** An expression that may raise. *)
Definition eval {A} (o : outcome A) : M A :=
  match o with
  | Returns a => ret a
  | Fails e => raise (Exc e)
  end.

(** A call that leaves the script: logged with its outcome. *)
Definition perform {A} (c : call) (o : outcome A) : M A :=
  fun w => eval o (record (Called c (is_ok o)) w).

Definition print (line : list piece) : M unit :=
  fun w => (Normal tt, record (Printed line) w).

Definition sys_exit {A} (status : Z) : M A := raise (SystemExit status).

(** [try: body  except ...: handler].  [handlers s] is the first clause
    matching [s], if any. *)
Definition try_except {A} (body : M A) (handlers : signal -> option (M A))
  : M A :=
  fun w =>
    match body w with
    | (Raised s, w') =>
        match handlers s with
        | Some h => h w'
        | None => (Raised s, w')
        end
    | done => done
    end.

(** [try: body  finally: final].  [final] runs however [body] ends; a
    signal raised by [final] replaces the one pending. *)
Definition try_finally {A} (body : M A) (final : M unit) : M A :=
  fun w =>
    let '(r, w1) := body w in
    match final w1 with
    | (Normal _, w2) => (r, w2)
    | (Raised s, w2) => (Raised s, w2)
    end.

(** [with enter as _: body], for a context manager whose [__exit__] closes
    and does not swallow exceptions. *)
Definition with_ {A} (enter : M unit) (leave : M unit) (body : M A) : M A :=
  enter ;; try_finally body leave.

Definition modify (f : world -> world) : M unit := fun w => (Normal tt, f w).

(** ** PyVISA and [wave], as the script calls them *)

Section Script.

Variable E : environment.

(** [pyvisa.ResourceManager()] *)
Definition new_ResourceManager : M unit :=
  perform ResourceManager
          match on_ResourceManager E with
          | Some e => Fails e
          | None => Returns tt
          end.

(** [rm.list_resources()] *)
Definition rm_list_resources : M (list string) :=
  perform ListResources (on_list_resources E).

(** [rm.close()] *)
Definition rm_close : M unit := perform RmClose (Returns tt).

(** [rm.open_resource(name, timeout=..., chunk_size=...)] *)
Definition rm_open_resource (name : string) (timeout chunk_size : Z) : M unit :=
  perform (OpenResource name timeout chunk_size) (on_open_resource E name).

(** [scope.query(message)] *)
Definition scope_query (message : string) : M string :=
  perform (Query message) (on_query E message).

(** [scope.write(message)] *)
Definition scope_write (message : string) : M unit :=
  perform (Write message) (on_write E message).

(** [scope.query_binary_values(message, datatype='B', ...)]: the block of
    unsigned bytes that the instrument sends comes back as a list of
    [int]. *)
Definition scope_query_binary_values
  (message datatype header_fmt : string) (is_big_endian : bool) : M (list Z) :=
  block <- perform (QueryBinaryValues message datatype header_fmt is_big_endian)
                   (on_query_binary_values E message) ;;
  ret (map int_of_byte block).

(** [scope.close()] *)
Definition scope_close : M unit := perform ScopeClose (on_scope_close E).

(** [wave.open(f, "wb")]: the file is created, or emptied if it exists. *)
Definition wave_open (f mode : string) : M unit :=
  perform (WaveOpen f mode) (on_wave_open E f) ;;
  modify (fun w =>
            {| log := log w;
               disk := store (disk w) f Empty;
               wav_file := Some {| wr_file := f; wr_params := None |} |}).

(** [wav_file.setparams(p)] *)
Definition setparams (p : wave_params) : M unit :=
  perform (SetParams p) (on_setparams E p) ;;
  modify (fun w =>
            {| log := log w;
               disk := disk w;
               wav_file := option_map
                             (fun wr => {| wr_file := wr_file wr;
                                           wr_params := Some p |})
                             (wav_file w) |}).

(** [wav_file.writeframes(data)]: header and payload go to the file.  The
    header holds the parameters as they were set, which is what [wave]
    writes when the declared frame count is the number of frames in
    [data], as it is in this script. *)
Definition writeframes (data : list byte) : M unit :=
  fun w =>
    match wav_file w with
    | Some {| wr_file := f; wr_params := Some p |} =>
        let o := on_writeframes E p data in
        eval o {| log := log w ++ [Called (WriteFrames data) (is_ok o)];
                  disk := store (disk w) f
                                (if is_ok o then Container p data
                                 else Unfinished);
                  wav_file := wav_file w |}
    | _ => (Raised (Exc (OtherError "wave.Error" "# channels not specified")),
            w)
    end.

(** The close that leaving the [with] block triggers. *)
Definition wave_close : M unit :=
  fun w =>
    match wav_file w with
    | Some wr =>
        let o := on_wave_close E (disk w (wr_file wr)) in
        eval o {| log := log w ++ [Called WaveClose (is_ok o)];
                  disk := disk w;
                  wav_file := None |}
    | None => (Normal tt, w)
    end.

(** ** The script *)

(** Lines 22-37: enumerate, keep the USB resources, insist on exactly one,
    open it. *)
Definition connect : M unit :=
  resources <- rm_list_resources ;;
  print [Lit "Available resources: "; TupleOf resources] ;;
  let usb_resources := filter (str_in "USB") resources in
  (if negb (Nat.eqb (List.length usb_resources) 1) then
     print [Lit "Bad instrument list or multiple USB devices found:";
            Lit " "; ListOf usb_resources] ;;
     rm_close ;;
     sys_exit (-1)
   else ret tt) ;;
  scope_resource_name <- eval (index usb_resources 0) ;;
  print [Lit "Connecting to: "; Lit scope_resource_name] ;;
  rm_open_resource scope_resource_name 20000 1024000.

(** Lines 39-52: sample rate, stop, raw mode, the waveform block, release
    the key hold, close the session. *)
Definition acquire : M (float * list Z * Z) :=
  reply <- scope_query ":ACQ:SAMP?" ;;
  sample_rate <- eval (py_float reply) ;;
  print [Lit "Acquisition Sample Rate: "; FloatOf sample_rate; Lit " Sa/s"] ;;
  scope_write ":STOP" ;;
  scope_write ":WAV:POIN:MODE RAW" ;;
  rawdata_bytes <- scope_query_binary_values ":WAV:DATA? CHAN1" "B" "ieee" false ;;
  let data_size := Z.of_nat (List.length rawdata_bytes) in
  print [Lit "Data size (bytes): "; IntOf data_size] ;;
  scope_write ":KEY:FORCE" ;;
  scope_close ;;
  ret (sample_rate, rawdata_bytes, data_size).

(** Lines 54-73: the bytes go into [channel1.wav] as they are. *)
Definition save (sample_rate : float) (rawdata_bytes : list Z) (data_size : Z)
  : M unit :=
  rawdata_bytes_as_bytes <- eval (py_bytes rawdata_bytes) ;;
  let wav_filename := "channel1.wav" in
  with_ (wave_open wav_filename "wb") wave_close
        (let nchannels := 1 in
         let sampwidth := 1 in
         let comptype := "NONE" in
         let compname := "not compressed" in
         rate <- eval (py_int sample_rate) ;;
         setparams {| nchannels := nchannels; sampwidth := sampwidth;
                      framerate := rate; nframes := data_size;
                      comptype := comptype; compname := compname |} ;;
         writeframes rawdata_bytes_as_bytes) ;;
  print [Lit "Data saved to "; Lit wav_filename].

(** The body of the second [try] statement. *)
Definition guarded : M unit :=
  connect ;;
  acquired <- acquire ;;
  let '(sample_rate, rawdata_bytes, data_size) := acquired in
  save sample_rate rawdata_bytes data_size.

(** The whole module, top to bottom. *)
Definition Rigol_view : M unit :=
  try_except new_ResourceManager
    (fun s =>
       match s with
       | Exc (LibraryError _ as e) =>
           Some (print [Lit "Error initializing PyVISA: "; ErrorOf e] ;;
                 sys_exit (-1))
       | _ => None
       end) ;;
  try_finally
    (try_except guarded
       (fun s =>
          match s with
          | Exc (VisaIOError _ as e) =>
              Some (print [Lit "VISA IO Error: "; ErrorOf e])
          | Exc e =>
              Some (print [Lit "An error occurred: "; ErrorOf e])
          | SystemExit _ => None
          end))
    rm_close.

(** What the interpreter hands to the operating system: the argument of
    [sys.exit], 1 for an exception nobody caught, 0 at the end of the
    module. *)
Definition exit_status (r : result unit) : Z :=
  match r with
  | Normal _ => 0
  | Raised (SystemExit status) => status
  | Raised (Exc _) => 1
  end.

Definition run (d : files) : Z * world :=
  let '(r, w) := Rigol_view (start d) in (exit_status r, w).

(** The exit status of a run and the world it leaves behind. *)
Definition status (d : files) : Z := fst (run d).
Definition final (d : files) : world := snd (run d).

End Script.

(** ** Reading a run *)

(** The calls of a log, in order, prints left out. *)
Definition calls (tr : list event) : list call :=
  flat_map (fun ev => match ev with Called c _ => [c] | Printed _ => [] end) tr.

Definition is_open (c : call) : bool :=
  match c with OpenResource _ _ _ => true | _ => false end.

Definition is_release (c : call) : bool :=
  match c with RmClose => true | _ => false end.

Definition is_session_close (c : call) : bool :=
  match c with ScopeClose => true | _ => false end.

(** What is sent to the instrument over an open session. *)
Definition is_command (c : call) : bool :=
  match c with
  | Query _ | Write _ | QueryBinaryValues _ _ _ _ => true
  | _ => false
  end.

(** Any step that goes over the bus. *)
Definition is_bus_step (c : call) : bool :=
  match c with
  | ListResources | OpenResource _ _ _ | ScopeClose => true
  | _ => is_command c
  end.

(** Any step that touches the output file. *)
Definition is_file_step (c : call) : bool :=
  match c with
  | WaveOpen _ _ | SetParams _ | WriteFrames _ | WaveClose => true
  | _ => false
  end.

Definition releases (tr : list event) : nat :=
  List.length (filter is_release (calls tr)).

Definition session_closes (tr : list event) : nat :=
  List.length (filter is_session_close (calls tr)).

Definition commands (tr : list event) : list call :=
  filter is_command (calls tr).

(** Life of the instrument session along a log. *)
Inductive session : Type := Unopened | Open | Closed.

(** [session_ok st tr]: starting in state [st], every command and every
    close in [tr] finds the session open, and it is opened at most once. *)
Fixpoint session_ok (st : session) (tr : list event) : bool :=
  match tr with
  | [] => true
  | Called (OpenResource _ _ _) true :: rest =>
      match st with Unopened => session_ok Open rest | _ => false end
  | Called ScopeClose _ :: rest =>
      match st with Open => session_ok Closed rest | _ => false end
  | Called c _ :: rest =>
      if is_command c
      then match st with Open => session_ok st rest | _ => false end
      else session_ok st rest
  | Printed _ :: rest => session_ok st rest
  end.

(** A session was opened: some [open_resource] returned. *)
Definition session_opened (tr : list event) : bool :=
  existsb (fun ev => match ev with
                     | Called (OpenResource _ _ _) true => true
                     | _ => false
                     end) tr.

(** Some step over the bus raised. *)
Definition bus_failure (tr : list event) : bool :=
  existsb (fun ev => match ev with
                     | Called c false => is_bus_step c
                     | _ => false
                     end) tr.

(** Some step on the output file was made. *)
Definition touches_file (tr : list event) : bool :=
  existsb is_file_step (calls tr).


(** The header the script declares for a sample rate and a block length. *)
Definition header (rate : Z) (count : nat) : wave_params :=
  {| nchannels := 1; sampwidth := 1; framerate := rate;
     nframes := Z.of_nat count;
     comptype := "NONE"; compname := "not compressed" |}.

(** The five messages of the acquisition, as sent. *)
Definition protocol : list call :=
  [ Query ":ACQ:SAMP?";
    Write ":STOP";
    Write ":WAV:POIN:MODE RAW";
    QueryBinaryValues ":WAV:DATA? CHAN1" "B" "ieee" false;
    Write ":KEY:FORCE" ].

(** The world just after the resource manager was created. *)
Definition bus_ready (d : files) : world :=
  record (Called ResourceManager true) (start d).

(** The text the top-level handlers put before the exception. *)
Definition caught_as (e : error) : string :=
  match e with
  | VisaIOError _ => "VISA IO Error: "
  | _ => "An error occurred: "
  end.

(** How the second [try] statement ends, given how its body ended: an
    exception is printed by one of the two handlers, a [SystemExit] passes
    through them, and the resource manager is released in all three
    cases. *)
Definition conclude (r : result unit * world) : Z * world :=
  match r with
  | (Normal _, w) => (0, record (Called RmClose true) w)
  | (Raised (Exc e), w) =>
      (0, record (Called RmClose true)
                 (record (Printed [Lit (caught_as e); ErrorOf e]) w))
  | (Raised (SystemExit code), w) => (code, record (Called RmClose true) w)
  end.

(** The float 1000000.0. *)
Definition one_megahertz : float := binary_normalize prec emax 1000000 0 false.

(** *** Conditions on the environment *)

(** Bus access is there, exactly one resource is a USB one, and the
    session on it opens. *)
Record connection (E : environment) (name : string) : Prop := {
  rm_ready : on_ResourceManager E = None;
  one_usb : exists resources,
      on_list_resources E = Returns resources /\
      filter (str_in "USB") resources = [name];
  session_opens : is_ok (on_open_resource E name) = true
}.

(** Every step of lines 22-52 except the parse of the sample rate goes
    through: the rate query answers [reply] and the binary read answers
    [block]. *)
Record acquisition (E : environment) (name reply : string)
       (block : list byte) : Prop := {
  connected : connection E name;
  rate_reply : on_query E ":ACQ:SAMP?" = Returns reply;
  stopped : is_ok (on_write E ":STOP") = true;
  raw_mode : is_ok (on_write E ":WAV:POIN:MODE RAW") = true;
  block_read : on_query_binary_values E ":WAV:DATA? CHAN1" = Returns block;
  key_released : is_ok (on_write E ":KEY:FORCE") = true;
  session_closed : is_ok (on_scope_close E) = true
}.

(** The container writer goes through with header [p] and payload
    [data]. *)
Record writer_accepts (E : environment) (p : wave_params) (data : list byte)
  : Prop := {
  file_opens : is_ok (on_wave_open E "channel1.wav") = true;
  params_taken : is_ok (on_setparams E p) = true;
  frames_taken : is_ok (on_writeframes E p data) = true;
  file_closes : is_ok (on_wave_close E (Some (Container p data))) = true
}.

(** The sample-rate reply arrives and parses. *)
Definition rate_parses (E : environment) : bool :=
  match on_query E ":ACQ:SAMP?" with
  | Returns reply => is_ok (py_float reply)
  | Fails _ => false
  end.

(** Everything between opening the session and closing it goes through. *)
Definition commands_succeed (E : environment) : bool :=
  rate_parses E &&
  is_ok (on_write E ":STOP") &&
  is_ok (on_write E ":WAV:POIN:MODE RAW") &&
  is_ok (on_query_binary_values E ":WAV:DATA? CHAN1") &&
  is_ok (on_write E ":KEY:FORCE").

(** *** Sample environments *)

Definition usb_scope : string := "USB0::0x1AB1::0x0588::DS1ED141904883::INSTR".

(** Everything answers; the bus lists [resources], the scope replies
    [reply] to the rate query and sends [block]. *)
Definition cooperative (resources : list string) (reply : string)
           (block : list byte) : environment :=
  {| on_ResourceManager := None;
     on_list_resources := Returns resources;
     on_open_resource := fun _ => Returns tt;
     on_query := fun _ => Returns reply;
     on_write := fun _ => Returns tt;
     on_query_binary_values := fun _ => Returns block;
     on_scope_close := Returns tt;
     on_wave_open := fun _ => Returns tt;
     on_setparams := fun _ => Returns tt;
     on_writeframes := fun _ _ => Returns tt;
     on_wave_close := fun _ => Returns tt |}.

Definition bench : environment :=
  cooperative ["ASRL1::INSTR"; usb_scope] "1000000.0" [x80; x7f; xff; x00].

Definition idle_bench : environment :=
  cooperative [usb_scope] "5e8" [].

Definition no_usb : environment :=
  cooperative ["ASRL1::INSTR"] "1000000.0" [x80].

Definition odd_reply : environment :=
  cooperative [usb_scope] "1.0 MSa/s" [x80].

(** The scope is there but the rate query times out. *)
Definition query_times_out : environment :=
  {| on_ResourceManager := None;
     on_list_resources := Returns [usb_scope];
     on_open_resource := fun _ => Returns tt;
     on_query := fun _ => Fails (VisaIOError "VI_ERROR_TMO");
     on_write := fun _ => Returns tt;
     on_query_binary_values := fun _ => Returns [x80];
     on_scope_close := Returns tt;
     on_wave_open := fun _ => Returns tt;
     on_setparams := fun _ => Returns tt;
     on_writeframes := fun _ _ => Returns tt;
     on_wave_close := fun _ => Returns tt |}.

(** The binary read times out. *)
Definition block_times_out : environment :=
  {| on_ResourceManager := None;
     on_list_resources := Returns [usb_scope];
     on_open_resource := fun _ => Returns tt;
     on_query := fun _ => Returns "1000000.0";
     on_write := fun _ => Returns tt;
     on_query_binary_values := fun _ => Fails (VisaIOError "VI_ERROR_TMO");
     on_scope_close := Returns tt;
     on_wave_open := fun _ => Returns tt;
     on_setparams := fun _ => Returns tt;
     on_writeframes := fun _ _ => Returns tt;
     on_wave_close := fun _ => Returns tt |}.


(** *** More observers *)

(** [wave.open] returned: the output file was created or emptied. *)
Definition file_opened (tr : list event) : bool :=
  existsb (fun ev => match ev with
                     | Called (WaveOpen _ _) true => true
                     | _ => false
                     end) tr.



(** No step over the bus comes after a step on the output file. *)
Fixpoint bus_before_file (file_seen : bool) (tr : list event) : bool :=
  match tr with
  | [] => true
  | Called c _ :: rest =>
      if is_file_step c then bus_before_file true rest
      else if is_bus_step c && file_seen then false
      else bus_before_file file_seen rest
  | Printed _ :: rest => bus_before_file file_seen rest
  end.




(** No VISA backend can be loaded. *)
Definition no_backend : environment :=
  {| on_ResourceManager := Some (LibraryError "Could not open VISA library");
     on_list_resources := Returns [usb_scope];
     on_open_resource := fun _ => Returns tt;
     on_query := fun _ => Returns "1000000.0";
     on_write := fun _ => Returns tt;
     on_query_binary_values := fun _ => Returns [x80];
     on_scope_close := Returns tt;
     on_wave_open := fun _ => Returns tt;
     on_setparams := fun _ => Returns tt;
     on_writeframes := fun _ _ => Returns tt;
     on_wave_close := fun _ => Returns tt |}.



(** A disk on which an earlier run left a recording. *)
Definition old_recording : files :=
  store no_files "channel1.wav" (Container (header 44100 2) [x01; x02]).

(** * Properties *)

(** ** The built-ins *)

Lemma prefix_split a b :
  String.prefix a b = true <-> exists rest, b = (a ++ rest)%string.
Proof.
  revert b. induction a as [|c a IH]; intros b.
  - split; [exists b; reflexivity | destruct b; reflexivity].
  - destruct b as [|c' b]; simpl.
    + split; [discriminate | intros [r H]; discriminate].
    + destruct (ascii_dec c c') as [->|N].
      * rewrite IH. split; intros [r H]; exists r; simpl in *; congruence.
      * split; [discriminate | intros [r H]; simpl in H; congruence].
Qed.

(** [needle in hay] holds exactly when [needle] occurs somewhere in
    [hay]. *)
Lemma str_in_spec needle hay :
  str_in needle hay = true <->
  exists before after, hay = (before ++ needle ++ after)%string.
Proof.
  induction hay as [|c hay IH]; cbn [str_in]; rewrite orb_true_iff.
  - split.
    + intros [H|H]; [|discriminate]. apply prefix_split in H as [r H].
      exists ""%string, r. exact H.
    + intros ([|x b] & a & H); [|discriminate]. left.
      apply prefix_split. exists a. exact H.
  - split.
    + intros [H|H].
      * apply prefix_split in H as [r H]. exists ""%string, r. exact H.
      * apply IH in H as (b & a & ->). exists (String c b), a. reflexivity.
    + intros ([|x b] & a & H).
      * left. apply prefix_split. exists a. exact H.
      * right. apply IH. exists b, a. simpl in H. congruence.
Qed.

Lemma byte_of_int_of_byte b : byte_of_int (int_of_byte b) = Some b.
Proof.
  unfold byte_of_int, int_of_byte.
  rewrite N2Z.id, Byte.of_to_N.
  destruct (Z.leb_spec 0 (Z.of_N (Byte.to_N b))) as [_|H]; [reflexivity|].
  pose proof (N2Z.is_nonneg (Byte.to_N b)). lia.
Qed.

(** The list of [int] that a block of unsigned bytes unpacks to converts
    back with [bytes] to the very same block. *)
Lemma py_bytes_of_block block :
  py_bytes (map int_of_byte block) = Returns block.
Proof.
  induction block as [|b block IH]; simpl; [reflexivity|].
  unfold py_bytes; fold py_bytes.
  now rewrite byte_of_int_of_byte, IH.
Qed.

(** [float] fails in one way only. *)
Lemma py_float_fails s e :
  py_float s = Fails e ->
  e = ValueError "could not convert string to float".
Proof.
  unfold py_float. intros H.
  repeat match type of H with
         | context [match ?x with _ => _ end] => destruct x
         end; congruence.
Qed.

Lemma py_float_one_megahertz : py_float "1000000.0" = Returns one_megahertz.
Proof. vm_compute. reflexivity. Qed.

Lemma py_int_one_megahertz : py_int one_megahertz = Returns 1000000.
Proof. reflexivity. Qed.

Example float_of_exponent_form : py_float "1e6" = Returns one_megahertz.
Proof. vm_compute. reflexivity. Qed.

Example float_of_padded_text :
  py_float "  1_000_000.000 " = Returns one_megahertz.
Proof. vm_compute. reflexivity. Qed.

Example float_of_tenth :
  py_float "0.1" = Returns (S754_finite false 7205759403792794 (-56)).
Proof. vm_compute. reflexivity. Qed.

Example float_of_nan : py_float "nan" = Returns S754_nan.
Proof. vm_compute. reflexivity. Qed.

Example float_of_text_with_unit : is_ok (py_float "1.0 MSa/s") = false.
Proof. vm_compute. reflexivity. Qed.

Example float_of_nothing : is_ok (py_float "") = false.
Proof. vm_compute. reflexivity. Qed.

Example int_truncates_towards_zero :
  match py_float "-2.9" with
  | Returns x => py_int x
  | Fails e => Fails e
  end = Returns (-2).
Proof. vm_compute. reflexivity. Qed.

Example int_of_nan_raises : is_ok (py_int S754_nan) = false.
Proof. reflexivity. Qed.

Example usb_resource_matches : str_in "USB" usb_scope = true.
Proof. reflexivity. Qed.

Example serial_resource_does_not_match : str_in "USB" "ASRL1::INSTR" = false.
Proof. reflexivity. Qed.

(** ** The two [try] statements *)

Arguments py_float : simpl never.
Arguments py_int : simpl never.
Arguments py_bytes : simpl never.
Arguments str_in : simpl never.
Arguments one_megahertz : simpl never.


Lemma run_without_backend E d msg :
  on_ResourceManager E = Some (LibraryError msg) ->
  run E d = (-1, {| log := [Called ResourceManager false;
                            Printed [Lit "Error initializing PyVISA: ";
                                     ErrorOf (LibraryError msg)]];
                    disk := d; wav_file := None |}).
Proof.
  intros H.
  unfold run, Rigol_view, new_ResourceManager, try_except, bind, perform.
  rewrite H. reflexivity.
Qed.

(** An exception of another class leaves the first [try] statement as it
    came: nothing is printed and the interpreter ends the run. *)
Lemma run_uncaught E d e :
  on_ResourceManager E = Some e ->
  match e with LibraryError _ => False | _ => True end ->
  run E d = (1, {| log := [Called ResourceManager false];
                   disk := d; wav_file := None |}).
Proof.
  intros H He.
  unfold run, Rigol_view, new_ResourceManager, try_except, bind, perform.
  rewrite H. destruct e; try contradiction; reflexivity.
Qed.

Lemma run_with_backend E d :
  on_ResourceManager E = None ->
  run E d = conclude (guarded E (bus_ready d)).
Proof.
  intros H.
  unfold run, Rigol_view, new_ResourceManager, try_except, try_finally,
    bind, perform.
  rewrite H. cbn -[guarded]. fold (bus_ready d).
  destruct (guarded E (bus_ready d)) as [[u|[e|code']] w]; try reflexivity.
  destruct e; reflexivity.
Qed.

(** ** Symbolic execution of the guarded block *)

Ltac unfold_guarded :=
  unfold guarded, connect, acquire, save, with_,
    rm_list_resources, rm_close, rm_open_resource,
    scope_query, scope_write, scope_query_binary_values, scope_close,
    wave_open, setparams, writeframes, wave_close,
    try_finally, perform, print, sys_exit, eval, modify, bind, ret, raise,
    bus_ready, record, start.

(** Use what the context says about the outcome in sight. *)
Ltac known :=
  match goal with
  | H : ?o = Returns _ |- context [?o] => rewrite H
  | H : ?o = Fails _ |- context [?o] => rewrite H
  | H : ?o = @cons string _ _ |- context [?o] => rewrite H
  | |- context [py_bytes (map int_of_byte _)] => rewrite py_bytes_of_block
  | |- context [py_bytes []] => change (py_bytes []) with (@Returns (list byte) [])
  | |- context [py_int one_megahertz] => rewrite py_int_one_megahertz
  | |- context [List.length (map _ _)] => rewrite length_map
  end.

(** Or else split on it. *)
Ltac branch :=
  match goal with
  | |- context [match ?o with Returns _ => _ | Fails _ => _ end] =>
      lazymatch o with
      | Returns _ => fail
      | Fails _ => fail
      | _ => destruct o eqn:?
      end
  | |- context [is_ok ?o] =>
      lazymatch o with
      | Returns _ => fail
      | Fails _ => fail
      | _ => destruct o eqn:?
      end
  end.

Ltac settle :=
  repeat (cbn; first [known | branch; simpl is_ok in *; try discriminate]);
  cbn.

(** Every way the script can go, one goal each. *)
Ltac all_paths E d :=
  unfold status, final;
  let msg := fresh "msg" in
  let Hrm := fresh "Hrm" in
  let resources := fresh "resources" in
  let Hls := fresh "Hls" in
  let name := fresh "name" in
  let other := fresh "other" in
  let rest := fresh "rest" in
  let Husb := fresh "Husb" in
  destruct (on_ResourceManager E) as [msg|] eqn:Hrm;
  [ destruct msg as [msg| | | | |];
    [ rewrite !(run_without_backend E d msg Hrm)
    | rewrite !(run_uncaught E d _ Hrm I) .. ];
    cbn
  | rewrite !(run_with_backend E d Hrm); unfold_guarded;
    destruct (on_list_resources E) as [resources|] eqn:Hls;
    [ destruct (filter (str_in "USB") resources)
        as [|name [|other rest]] eqn:Husb
    | ];
    settle ].

(** The way fixed by the hypotheses in the context. *)
Ltac this_path E d Hrm :=
  unfold status, final;
  rewrite !(run_with_backend E d Hrm); unfold_guarded; settle.

(** ** The written container *)

(** C1. When the sample-rate reply parses as the float 1000000.0 and the
    binary read returns [block], the container written to channel1.wav
    declares one channel, a sample width of one byte, compression NONE, a
    frame rate of 1000000 and as many frames as [block] has bytes, and its
    payload is [block] itself. *)
Theorem container_holds_block E d name reply block :
  acquisition E name reply block ->
  py_float reply = Returns one_megahertz ->
  writer_accepts E (header 1000000 (List.length block)) block ->
  disk (final E d) "channel1.wav"
  = Some (Container {| nchannels := 1; sampwidth := 1; framerate := 1000000;
                       nframes := Z.of_nat (List.length block);
                       comptype := "NONE"; compname := "not compressed" |}
                    block).
Proof.
  intros [[Hrm (resources & Hls & Husb) Hopen] Hq Hs Hr Hb Hk Hx] Hf
         [Ho Hp Hw Hcl].
  unfold header in *. this_path E d Hrm. reflexivity.
Qed.

Lemma container_holds_block_witness :
  acquisition bench usb_scope "1000000.0" [x80; x7f; xff; x00] /\
  py_float "1000000.0" = Returns one_megahertz /\
  disk (final bench no_files) "channel1.wav"
  = Some (Container {| nchannels := 1; sampwidth := 1; framerate := 1000000;
                       nframes := 4;
                       comptype := "NONE"; compname := "not compressed" |}
                    [x80; x7f; xff; x00]).
Proof.
  assert (Ha : acquisition bench usb_scope "1000000.0" [x80; x7f; xff; x00]).
  { repeat split; try reflexivity.
    exists ["ASRL1::INSTR"; usb_scope]. split; reflexivity. }
  assert (Hf : py_float "1000000.0" = Returns one_megahertz)
    by (vm_compute; reflexivity).
  split; [exact Ha | split; [exact Hf |]].
  apply (container_holds_block bench no_files usb_scope "1000000.0"
                               [x80; x7f; xff; x00] Ha Hf).
  repeat split.
Defined.

(** C9. When the binary read returns no bytes, the run still writes a
    container: its header declares zero frames and it has no payload. *)
Theorem empty_block_gives_empty_container E d name reply x rate :
  acquisition E name reply [] ->
  py_float reply = Returns x ->
  py_int x = Returns rate ->
  writer_accepts E (header rate 0) [] ->
  status E d = 0 /\
  disk (final E d) "channel1.wav"
  = Some (Container {| nchannels := 1; sampwidth := 1; framerate := rate;
                       nframes := 0;
                       comptype := "NONE"; compname := "not compressed" |}
                    []).
Proof.
  intros [[Hrm (resources & Hls & Husb) Hopen] Hq Hs Hr Hb Hk Hx] Hf Hi
         [Ho Hp Hw Hcl].
  unfold header in *. simpl Z.of_nat in *. this_path E d Hrm.
  split; reflexivity.
Qed.

Lemma empty_block_gives_empty_container_witness :
  acquisition idle_bench usb_scope "5e8" [] /\
  status idle_bench no_files = 0 /\
  disk (final idle_bench no_files) "channel1.wav"
  = Some (Container {| nchannels := 1; sampwidth := 1; framerate := 500000000;
                       nframes := 0;
                       comptype := "NONE"; compname := "not compressed" |}
                    []).
Proof.
  assert (Ha : acquisition idle_bench usb_scope "5e8" []).
  { repeat split; try reflexivity.
    exists [usb_scope]. split; reflexivity. }
  split; [exact Ha|].
  apply (empty_block_gives_empty_container
           idle_bench no_files usb_scope "5e8"
           (S754_finite false 8388608000000000 (-24)) 500000000 Ha).
  - vm_compute; reflexivity.
  - reflexivity.
  - repeat split.
Defined.

(** ** Choosing the instrument *)



(** C3. When the enumeration lists exactly one USB resource, the only call
    of [open_resource] in the run is on that resource, with a timeout of
    20000 ms and a chunk size of 1024000 bytes, whatever the device. *)
Theorem session_opened_on_the_usb_resource E d resources name :
  on_ResourceManager E = None ->
  on_list_resources E = Returns resources ->
  filter (str_in "USB") resources = [name] ->
  filter is_open (calls (log (final E d)))
  = [OpenResource name 20000 1024000].
Proof.
  intros Hrm Hls Husb. this_path E d Hrm; reflexivity.
Qed.

Lemma session_opened_on_the_usb_resource_witness :
  filter (str_in "USB") ["ASRL1::INSTR"; usb_scope] = [usb_scope] /\
  filter is_open (calls (log (final bench no_files)))
  = [OpenResource usb_scope 20000 1024000].
Proof.
  assert (Hu : filter (str_in "USB") ["ASRL1::INSTR"; usb_scope] = [usb_scope])
    by reflexivity.
  split; [exact Hu|].
  exact (session_opened_on_the_usb_resource
           bench no_files ["ASRL1::INSTR"; usb_scope] usb_scope
           eq_refl eq_refl Hu).
Defined.

(** ** Failures on the bus *)

(** C4. The output file is touched only after the whole acquisition went
    through.  In a run in which a step on the bus raises (the binary read
    or any other), no file is created or changed, no call on the output
    file is made, and the resource manager is still released. *)
Theorem bus_failure_leaves_no_file E d :
  (bus_failure (log (final E d)) = true ->
     disk (final E d) = d /\
     touches_file (log (final E d)) = false /\
     releases (log (final E d)) = 1%nat)
  /\
  (touches_file (log (final E d)) = true ->
     exists name reply block,
       acquisition E name reply block /\ is_ok (py_float reply) = true).
Proof.
  all_paths E d.
  all: split; intros H; try discriminate H; try (repeat split; fail).
  all: exists name; do 2 eexists; split;
    [ repeat split; try eassumption;
      try match goal with
          | H : ?o = Returns _ |- is_ok ?o = true => rewrite H; reflexivity
          end;
      eexists; split; eassumption
    | match goal with
      | H : ?o = Returns _ |- is_ok ?o = true => rewrite H; reflexivity
      end ].
Qed.

Lemma bus_failure_leaves_no_file_witness :
  (bus_failure (log (final block_times_out no_files)) = true /\
   disk (final block_times_out no_files) = no_files /\
   touches_file (log (final block_times_out no_files)) = false /\
   releases (log (final block_times_out no_files)) = 1%nat)
  /\
  (touches_file (log (final bench no_files)) = true /\
   exists name reply block,
     acquisition bench name reply block /\ is_ok (py_float reply) = true).
Proof.
  assert (Hb : bus_failure (log (final block_times_out no_files)) = true)
    by reflexivity.
  assert (Ht : touches_file (log (final bench no_files)) = true)
    by reflexivity.
  split; (split; [assumption|]).
  - exact (proj1 (bus_failure_leaves_no_file block_times_out no_files) Hb).
  - exact (proj2 (bus_failure_leaves_no_file bench no_files) Ht).
Defined.

(** ** Releasing what was acquired *)

(** Once the resource manager exists it is released on every way out; the
    release runs once, except after [sys.exit(-1)] in the guarded block,
    where the [finally] clause runs it a second time. *)
Lemma release_count E d :
  on_ResourceManager E = None ->
  releases (log (final E d))
  = match on_list_resources E with
    | Returns resources =>
        if Nat.eqb (List.length (filter (str_in "USB") resources)) 1
        then 1%nat else 2%nat
    | Fails _ => 1%nat
    end.
Proof.
  intros Hrm'. all_paths E d; try discriminate; reflexivity.
Qed.

(** C5. With no USB resource on the bus the resource manager is released
    twice: once before [sys.exit(-1)] and once more by the [finally]
    clause that the exit passes through. *)
Theorem release_runs_twice_without_usb :
  status no_usb no_files = -1 /\
  releases (log (final no_usb no_files)) = 2%nat /\
  log (final no_usb no_files)
  = [ Called ResourceManager true;
      Called ListResources true;
      Printed [Lit "Available resources: "; TupleOf ["ASRL1::INSTR"]];
      Printed [Lit "Bad instrument list or multiple USB devices found:";
               Lit " "; ListOf []];
      Called RmClose true;
      Called RmClose true ].
Proof. repeat split. Qed.

(** C6, as stated, fails: when the rate query times out the session has
    been opened and is never closed. *)
Lemma session_left_open_on_timeout :
  session_opened (log (final query_times_out no_files)) = true /\
  session_closes (log (final query_times_out no_files)) <> 1%nat.
Proof. split; [reflexivity | vm_compute; discriminate]. Qed.

(** C6, amended. In a run that opens a session, every query, write and
    binary read finds the session open; the session is closed once when
    the rate query, its parse, the two set-up writes, the binary read and
    the key release all go through, and is not closed by the script when
    one of them raises. *)
Theorem session_discipline E d :
  session_opened (log (final E d)) = true ->
  session_ok Unopened (log (final E d)) = true /\
  session_closes (log (final E d))
  = (if commands_succeed E then 1 else 0)%nat.
Proof.
  remember (commands_succeed E) as ok eqn:Hok.
  unfold commands_succeed, rate_parses in Hok.
  all_paths E d; intros Ho; try discriminate Ho.
  all: repeat (cbn in Hok;
               match goal with
               | H : ?o = Returns _ |- _ =>
                   match type of Hok with context [o] => rewrite H in Hok end
               | H : ?o = Fails _ |- _ =>
                   match type of Hok with context [o] => rewrite H in Hok end
               end);
    cbn in Hok; subst ok; split; reflexivity.
Qed.

Lemma session_discipline_witness :
  session_opened (log (final bench no_files)) = true /\
  session_ok Unopened (log (final bench no_files)) = true /\
  session_closes (log (final bench no_files))
  = (if commands_succeed bench then 1 else 0)%nat.
Proof.
  assert (Ho : session_opened (log (final bench no_files)) = true)
    by reflexivity.
  split; [exact Ho|].
  exact (session_discipline bench no_files Ho).
Defined.

(** ** Exit status *)




(** ** The protocol *)

(** C8. In a run whose acquisition goes through, the instrument receives
    the five messages :ACQ:SAMP?, :STOP, :WAV:POIN:MODE RAW,
    :WAV:DATA? CHAN1 and :KEY:FORCE, in this order and nothing else, and the
    sample rate is the reply to the first one read as a float.  A reply
    that [float] rejects raises [ValueError]: nothing more is sent, and the
    error is printed by the top-level handler. *)
Theorem protocol_and_rate_parse E d name reply :
  connection E name ->
  on_query E ":ACQ:SAMP?" = Returns reply ->
  (forall x block,
     py_float reply = Returns x ->
     acquisition E name reply block ->
     commands (log (final E d)) = protocol /\
     In (Printed [Lit "Acquisition Sample Rate: "; FloatOf x; Lit " Sa/s"])
        (log (final E d)))
  /\
  (forall e,
     py_float reply = Fails e ->
     e = ValueError "could not convert string to float" /\
     commands (log (final E d)) = [Query ":ACQ:SAMP?"] /\
     In (Printed [Lit "An error occurred: "; ErrorOf e]) (log (final E d)) /\
     touches_file (log (final E d)) = false /\
     status E d = 0).
Proof.
  intros [Hrm (resources & Hls & Husb) Hopen] Hq. split.
  - intros x block Hf [_ _ Hs Hr Hb Hk Hx].
    this_path E d Hrm; (split; [reflexivity | auto 20]).
  - intros e Hf. pose proof (py_float_fails _ _ Hf) as ->.
    this_path E d Hrm. repeat split. auto 20.
Qed.

Lemma protocol_and_rate_parse_witness :
  connection bench usb_scope /\
  acquisition bench usb_scope "1000000.0" [x80; x7f; xff; x00] /\
  commands (log (final bench no_files))
  = [ Query ":ACQ:SAMP?"; Write ":STOP"; Write ":WAV:POIN:MODE RAW";
      QueryBinaryValues ":WAV:DATA? CHAN1" "B" "ieee" false;
      Write ":KEY:FORCE" ] /\
  connection odd_reply usb_scope /\
  py_float "1.0 MSa/s" = Fails (ValueError "could not convert string to float") /\
  commands (log (final odd_reply no_files)) = [Query ":ACQ:SAMP?"].
Proof.
  assert (Hc : connection bench usb_scope).
  { repeat split. exists ["ASRL1::INSTR"; usb_scope]. split; reflexivity. }
  assert (Ha : acquisition bench usb_scope "1000000.0" [x80; x7f; xff; x00])
    by (split; try reflexivity; exact Hc).
  assert (Hc' : connection odd_reply usb_scope).
  { repeat split. exists [usb_scope]. split; reflexivity. }
  assert (Hf : py_float "1.0 MSa/s"
               = Fails (ValueError "could not convert string to float"))
    by (vm_compute; reflexivity).
  split; [exact Hc | split; [exact Ha | split; [| split; [exact Hc' | split; [exact Hf |]]]]].
  - exact (proj1 (proj1 (protocol_and_rate_parse
                           bench no_files usb_scope "1000000.0" Hc eq_refl)
                        one_megahertz [x80; x7f; xff; x00]
                        py_float_one_megahertz Ha)).
  - exact (proj1 (proj2 (proj2 (protocol_and_rate_parse
                                  odd_reply no_files usb_scope "1.0 MSa/s"
                                  Hc' eq_refl)
                               _ Hf))).
Defined.

(** ** What ends up in the file depends on the replies only *)




(** * Further properties of the script *)

(** ** The file system *)

(** X1. The script touches no file but channel1.wav. *)
Theorem other_files_untouched E d name :
  name <> "channel1.wav" ->
  disk (final E d) name = d name.
Proof.
  intros Hn. apply String.eqb_neq in Hn.
  all_paths E d; unfold store; rewrite ?Hn; reflexivity.
Qed.

Lemma other_files_untouched_witness :
  "notes.txt" <> "channel1.wav" /\
  disk (final bench (store no_files "notes.txt" Unfinished)) "notes.txt"
  = Some Unfinished.
Proof.
  assert (Hn : "notes.txt" <> "channel1.wav") by discriminate.
  split; [exact Hn|].
  exact (other_files_untouched bench (store no_files "notes.txt" Unfinished)
                               "notes.txt" Hn).
Defined.

(** X2. As long as [wave.open] has not returned, the file system is as it
    was: a fatal exit, a failure on the bus, a reply that does not parse
    or a failing [wave.open] leave an existing channel1.wav alone. *)
Theorem no_open_no_change E d :
  file_opened (log (final E d)) = false ->
  disk (final E d) = d.
Proof.
  all_paths E d; intros H; try discriminate H; reflexivity.
Qed.

Lemma no_open_no_change_witness :
  file_opened (log (final odd_reply old_recording)) = false /\
  disk (final odd_reply old_recording) = old_recording.
Proof.
  assert (H : file_opened (log (final odd_reply old_recording)) = false)
    by reflexivity.
  split; [exact H|].
  exact (no_open_no_change odd_reply old_recording H).
Defined.

(** X3. What was in channel1.wav before plays no part: two runs in the
    same environment print and call the same and end with the same
    status, and once [wave.open] has returned they leave the same content
    in channel1.wav, so that an old recording is replaced, not extended. *)
Theorem old_content_is_replaced E d1 d2 :
  log (final E d1) = log (final E d2) /\
  status E d1 = status E d2 /\
  (file_opened (log (final E d1)) = true ->
   disk (final E d1) "channel1.wav" = disk (final E d2) "channel1.wav").
Proof.
  unfold status, final.
  destruct (on_ResourceManager E) as [e|] eqn:Hrm.
  { destruct e as [msg| | | | |];
      [ rewrite (run_without_backend E d1 msg Hrm),
          (run_without_backend E d2 msg Hrm)
      | rewrite (run_uncaught E d1 _ Hrm I), (run_uncaught E d2 _ Hrm I) .. ];
      cbn; repeat split; discriminate. }
  rewrite (run_with_backend E d1 Hrm), (run_with_backend E d2 Hrm).
  unfold_guarded.
  destruct (on_list_resources E) as [resources|] eqn:Hls;
    [ destruct (filter (str_in "USB") resources)
        as [|name [|other rest]] eqn:Husb | ];
    settle.
  all: repeat split; intros H; try discriminate H; reflexivity.
Qed.

Lemma old_content_is_replaced_witness :
  file_opened (log (final bench old_recording)) = true /\
  disk (final bench old_recording) "channel1.wav"
  = disk (final bench no_files) "channel1.wav".
Proof.
  assert (H : file_opened (log (final bench old_recording)) = true)
    by reflexivity.
  split; [exact H|].
  exact (proj2 (proj2 (old_content_is_replaced bench old_recording no_files))
               H).
Defined.

(** ** What the user is told *)



(** ** A sample rate that is no number *)



(** ** Order of the steps *)



(** X7. The instrument and the output file are never worked on at the same
    time: after the first call on the output file no step over the bus is
    made. *)
Theorem bus_is_done_before_the_file E d :
  bus_before_file false (log (final E d)) = true.
Proof.
  all_paths E d; reflexivity.
Qed.

(** X8. At most one session is opened in a run, and only on a resource
    that the enumeration listed and whose name contains the text USB. *)
Theorem opened_resource_was_listed E d :
  filter is_open (calls (log (final E d))) = [] \/
  exists resources name before after,
    on_list_resources E = Returns resources /\
    In name resources /\
    name = (before ++ "USB" ++ after)%string /\
    filter is_open (calls (log (final E d)))
    = [OpenResource name 20000 1024000].
Proof.
  all_paths E d; try (left; reflexivity).
  all: right;
    assert (Hin : In name (filter (str_in "USB") resources))
      by (rewrite Husb; left; reflexivity);
    apply filter_In in Hin as [Hin Hm];
    apply str_in_spec in Hm as (before & after & Hm);
    exists resources, name, before, after; repeat split; assumption.
Qed.

(** X9. When the resource manager cannot be created the script prints the
    error and exits with -1 at once: no enumeration, no release of a
    handle it never had, and the file system as it was. *)
Theorem no_backend_stops_at_once E d msg :
  on_ResourceManager E = Some (LibraryError msg) ->
  status E d = -1 /\
  calls (log (final E d)) = [ResourceManager] /\
  In (Printed [Lit "Error initializing PyVISA: ";
               ErrorOf (LibraryError msg)]) (log (final E d)) /\
  releases (log (final E d)) = 0%nat /\
  disk (final E d) = d.
Proof.
  intros Hrm. unfold status, final.
  rewrite (run_without_backend E d msg Hrm). cbn. repeat split. auto.
Qed.

Lemma no_backend_stops_at_once_witness :
  status no_backend old_recording = -1 /\
  calls (log (final no_backend old_recording)) = [ResourceManager] /\
  In (Printed [Lit "Error initializing PyVISA: ";
               ErrorOf (LibraryError "Could not open VISA library")])
     (log (final no_backend old_recording)) /\
  releases (log (final no_backend old_recording)) = 0%nat /\
  disk (final no_backend old_recording) = old_recording.
Proof.
  exact (no_backend_stops_at_once no_backend old_recording
                                  "Could not open VISA library" eq_refl).
Defined.


(** X11. Whatever fails, the instrument never receives anything but the
    five messages of the protocol, in their order: the commands of a run
    are a prefix of the protocol. *)
Theorem commands_are_a_prefix_of_the_protocol E d :
  exists n, commands (log (final E d)) = firstn n protocol.
Proof.
  all_paths E d;
    first [ exists 0%nat; reflexivity | exists 1%nat; reflexivity
          | exists 2%nat; reflexivity | exists 3%nat; reflexivity
          | exists 4%nat; reflexivity | exists 5%nat; reflexivity ].
Qed.

(** X12. Without an open session nothing is sent: when no [open_resource]
    returned, the run holds no query, write or binary read, no
    [scope.close()] and no call on the output file. *)
Theorem no_session_no_commands E d :
  session_opened (log (final E d)) = false ->
  commands (log (final E d)) = [] /\
  session_closes (log (final E d)) = 0%nat /\
  touches_file (log (final E d)) = false.
Proof.
  all_paths E d; intros H; try discriminate H; repeat split.
Qed.

Lemma no_session_no_commands_witness :
  session_opened (log (final no_usb no_files)) = false /\
  commands (log (final no_usb no_files)) = [] /\
  session_closes (log (final no_usb no_files)) = 0%nat /\
  touches_file (log (final no_usb no_files)) = false.
Proof.
  assert (H : session_opened (log (final no_usb no_files)) = false)
    by reflexivity.
  split; [exact H|].
  exact (no_session_no_commands no_usb no_files H).
Defined.
